(** * Campus Vault: a shallow embedding of [app.py]

    The Flask application keeps two tables ([User], [Transaction]) and
    serves eight routes.  Each view function of [app.py] is embedded as a
    function from the request data, the database and the session of the
    requesting browser to an [Outcome]: the response, the messages passed
    to [flash], the database after the request and the session after it.

    Conventions of the embedding:
    - a Python [float] is a binary64 primitive float; [float(...)] applied to
      a form field is taken as already evaluated: [Some x] for the parsed
      value, [None] when [float] raises;
    - a table is a finite map from the primary key [id] to the other
      columns; an ORM object is the pair of its key and its columns;
    - the form of a POST carries every field the page's form submits;
    - Python strings are kept as their UTF-8 bytes. *)

From Stdlib Require Import ZArith String Ascii Floats DecimalString Lia.
From stdpp Require Import base option list sorting gmap strings.

Set Warnings "-inexact-float".
Local Open Scope Z_scope.

(** ** Python numbers *)

(** [sum] starts from the integer [0], so a total is an [int] when nothing
    was added and a [float] otherwise. *)
Inductive pynum :=
| PyInt (n : Z)
| PyFloat (x : float).

(** [float(n)] for an integer [n]: the nearest binary64 value. *)
Definition float_of_int (n : Z) : float :=
  SF2Prim (binary_normalize prec emax n 0 false).

Definition py_add (a b : pynum) : pynum :=
  match a, b with
  | PyInt m, PyInt n => PyInt (m + n)
  | PyInt m, PyFloat y => PyFloat (float_of_int m + y)
  | PyFloat x, PyInt n => PyFloat (x + float_of_int n)
  | PyFloat x, PyFloat y => PyFloat (x + y)
  end.

Definition py_sub (a b : pynum) : pynum :=
  match a, b with
  | PyInt m, PyInt n => PyInt (m - n)
  | PyInt m, PyFloat y => PyFloat (float_of_int m - y)
  | PyFloat x, PyInt n => PyFloat (x - float_of_int n)
  | PyFloat x, PyFloat y => PyFloat (x - y)
  end.

(** [sum(xs)] over floats: the items are added from left to right to the
    start value [0]. *)
Definition py_sum (xs : list float) : pynum :=
  foldl (λ acc x, py_add acc (PyFloat x)) (PyInt 0) xs.

(** [a > b] on floats. *)
Definition float_gt (a b : float) : bool := PrimFloat.ltb b a.

(** ** Decimal text *)

Definition digit_char (d : Z) : ascii := ascii_of_nat (48 + Z.to_nat d).

Definition is_digit (c : ascii) : bool :=
  let n := nat_of_ascii c in (48 <=? n)%nat && (n <=? 57)%nat.

Definition all_digits (s : string) : bool :=
  forallb is_digit (list_ascii_of_string s).

(** The decimal digits of a natural number, ["0"] for zero. *)
Definition decimal (n : Z) : string :=
  NilZero.string_of_uint (N.to_uint (Z.to_N n)).

(** A comma before every group of three digits, counted from the right;
    the argument is the digit string reversed. *)
Fixpoint group3 (rev_digits : list ascii) : list ascii :=
  match rev_digits with
  | a :: b :: c :: ((_ :: _) as rest) => a :: b :: c :: ","%char :: group3 rest
  | l => l
  end.

Definition thousands (s : string) : string :=
  string_of_list_ascii (reverse (group3 (reverse (list_ascii_of_string s)))).

(** The integer nearest to [n / d] for [d > 0], ties to the even one. *)
Definition round_half_even (n d : Z) : Z :=
  let q := n / d in
  let r := n mod d in
  match 2 * r ?= d with
  | Lt => q
  | Gt => q + 1
  | Eq => if Z.even q then q else q + 1
  end.

(** [m * 2^e * 100] rounded to an integer: the hundredths of a finite
    float of mantissa [m] and exponent [e]. *)
Definition hundredths (m : positive) (e : Z) : Z :=
  if 0 <=? e then Z.pos m * 2 ^ e * 100
  else round_half_even (Z.pos m * 100) (2 ^ (- e)).

Definition sign_text (s : bool) : string := if s then "-" else "".

(** [format(x, '.2f')] and, with [grouping], [format(x, ',.2f')]: the
    exact value of [x] rounded half-even to two decimals. *)
Definition format_2f (grouping : bool) (x : float) : string :=
  match Prim2SF x with
  | S754_nan => "nan"
  | S754_infinity s => sign_text s +:+ "inf"
  | S754_zero s => sign_text s +:+ "0.00"
  | S754_finite s m e =>
      let h := hundredths m e in
      let whole := decimal (h / 100) in
      sign_text s +:+ (if grouping then thousands whole else whole) +:+ "."
        +:+ String (digit_char (h mod 100 / 10))
              (String (digit_char (h mod 10)) "")
  end.

(** An integer left-padded with zeros to [width] digits ([%02d], [%04d]). *)
Definition zero_pad (width : nat) (n : Z) : string :=
  let s := decimal n in
  string_of_list_ascii (replicate (width - String.length s) "0"%char) +:+ s.

(** The shape [[-]d+.dd]: an optional sign, at least one digit, a point and
    exactly two digits. *)
Fixpoint point_two_digits (s : string) : bool :=
  match s with
  | EmptyString => false
  | String c rest =>
      if is_digit c then point_two_digits rest
      else bool_decide (c = "."%char) &&
           match rest with
           | String a (String b EmptyString) => is_digit a && is_digit b
           | _ => false
           end
  end.

Definition unsigned_two_decimals (s : string) : bool :=
  match s with
  | EmptyString => false
  | String c rest => is_digit c && point_two_digits rest
  end.

Definition two_decimals (s : string) : bool :=
  match s with
  | String c rest =>
      if bool_decide (c = "-"%char) then unsigned_two_decimals rest
      else unsigned_two_decimals s
  | EmptyString => false
  end.

(** Exactly [w] characters, all of them digits. *)
Definition n_digits (w : nat) (s : string) : bool :=
  (String.length s =? w)%nat && all_digits s.

(** The shape [YYYY-MM-DD]. *)
Definition is_Ymd (s : string) : bool :=
  match list_ascii_of_string s with
  | [y1; y2; y3; y4; h1; m1; m2; h2; d1; d2] =>
      forallb is_digit [y1; y2; y3; y4; m1; m2; d1; d2]
      && bool_decide (h1 = "-"%char) && bool_decide (h2 = "-"%char)
  | _ => false
  end.

(** Finite floats: neither an infinity nor a NaN. *)
Definition is_finite (x : float) : bool :=
  match Prim2SF x with
  | S754_zero _ | S754_finite _ _ _ => true
  | _ => false
  end.

(** ** datetime *)

Module datetime.
Record t := mk {
  year : Z; month : Z; day : Z;
  hour : Z; minute : Z; second : Z; microsecond : Z
}.

(** The ranges a [datetime] object is built within. *)
Definition valid (d : t) : Prop :=
  1 ≤ year d ≤ 9999 ∧ 1 ≤ month d ≤ 12 ∧ 1 ≤ day d ≤ 31 ∧
  0 ≤ hour d < 24 ∧ 0 ≤ minute d < 60 ∧ 0 ≤ second d < 60 ∧
  0 ≤ microsecond d < 1000000.

Definition fields (d : t) : list Z :=
  [year d; month d; day d; hour d; minute d; second d; microsecond d].

Fixpoint lex_compare (a b : list Z) : comparison :=
  match a, b with
  | [], [] => Eq
  | [], _ :: _ => Lt
  | _ :: _, [] => Gt
  | x :: a', y :: b' =>
      match x ?= y with
      | Eq => lex_compare a' b'
      | c => c
      end
  end.

(** Chronological comparison, field by field. *)
Definition compare (a b : t) : comparison := lex_compare (fields a) (fields b).

(** [d.strftime('%Y-%m-%d')]. *)
Definition strftime_Ymd (d : t) : string :=
  zero_pad 4 (year d) +:+ "-" +:+ zero_pad 2 (month d) +:+ "-"
    +:+ zero_pad 2 (day d).
End datetime.

(** ** csv.writer, default (excel) dialect *)

Definition quotechar : ascii := ascii_of_nat 34.
Definition CR : ascii := ascii_of_nat 13.
Definition LF : ascii := ascii_of_nat 10.

(** The characters that force a field to be quoted: the delimiter, the
    quote character and those of the line terminator. *)
Definition csv_special (c : ascii) : bool :=
  bool_decide (c = ","%char) || bool_decide (c = quotechar)
  || bool_decide (c = CR) || bool_decide (c = LF).

Fixpoint csv_escape (s : string) : string :=
  match s with
  | EmptyString => EmptyString
  | String c s' =>
      if bool_decide (c = quotechar)
      then String quotechar (String quotechar (csv_escape s'))
      else String c (csv_escape s')
  end.

Definition csv_field (s : string) : string :=
  if existsb csv_special (list_ascii_of_string s)
  then String quotechar (csv_escape s) +:+ String quotechar ""
  else s.

Fixpoint csv_join (fields : list string) : string :=
  match fields with
  | [] => ""
  | [f] => f
  | f :: rest => f +:+ "," +:+ csv_join rest
  end.

Definition lineterminator : string := String CR (String LF "").

(** [cw.writerow(fields)] for a row of at least two fields: what is
    appended to the buffer. *)
Definition writerow (fields : list string) : string :=
  csv_join (csv_field <$> fields) +:+ lineterminator.

(** *** The text as a reader of the dialect splits it *)

(** The delimiters and line-break characters a reader meets outside
    quotes, in order; every quote character opens or closes a quoted
    stretch. *)
Fixpoint csv_structure (in_quotes : bool) (s : string) : list ascii :=
  match s with
  | EmptyString => []
  | String c s' =>
      if bool_decide (c = quotechar) then csv_structure (negb in_quotes) s'
      else if in_quotes then csv_structure in_quotes s'
      else if csv_special c then c :: csv_structure in_quotes s'
      else csv_structure in_quotes s'
  end.

(** Whether the reader is inside quotes at the end of the text. *)
Fixpoint csv_in_quotes (in_quotes : bool) (s : string) : bool :=
  match s with
  | EmptyString => in_quotes
  | String c s' =>
      csv_in_quotes (if bool_decide (c = quotechar) then negb in_quotes
                     else in_quotes) s'
  end.

(** ** Database models *)

Module User.
(** The columns of [User] other than the primary key [id]. *)
Record t := mk {
  username : string;
  password : string;
  budget : float
}.

Definition default_budget : float := 5000.0%float.

Definition set_budget (b : float) (u : t) : t :=
  {| username := username u; password := password u; budget := b |}.
End User.

Module Transaction.
(** The columns of [Transaction] other than the primary key [id]. *)
Record t := mk {
  description : string;
  amount : float;
  type : string;
  date : datetime.t;
  user_id : Z
}.
End Transaction.

(** An ORM object: primary key and columns. *)
Abbreviation UserObj := (Z * User.t)%type.
Abbreviation TransactionObj := (Z * Transaction.t)%type.

Record Store := mkStore {
  users : gmap Z User.t;
  transactions : gmap Z Transaction.t
}.

Definition empty_store : Store := mkStore ∅ ∅.

(** The key an insert gets: one more than the largest key of the table,
    [1] in an empty table. *)
Definition max_key {A} (m : gmap Z A) : Z :=
  map_fold (λ k _ acc, Z.max k acc) 0 m.

Definition next_id {A} (m : gmap Z A) : Z := max_key m + 1.

(** [db.session.add(row); db.session.commit()] *)
Definition db_add {A} (row : A) (m : gmap Z A) : gmap Z A :=
  <[next_id m := row]> m.

(** [Transaction.date.desc()]: [a] comes before [b] when its date is not
    earlier. *)
Definition date_desc (a b : TransactionObj) : Prop :=
  datetime.compare (Transaction.date a.2) (Transaction.date b.2) ≠ Lt.

Global Instance date_desc_dec a b : Decision (date_desc a b).
Proof. unfold date_desc. apply _. Defined.

(** [Transaction.query.filter_by(user_id=uid)
      .order_by(Transaction.date.desc()).all()] *)
Definition query_transactions (uid : Z) (db : Store) : list TransactionObj :=
  merge_sort date_desc
    (filter (λ t, Transaction.user_id t.2 = uid) (map_to_list (transactions db))).

(** [User.query.filter_by(username=name).first()] *)
Definition query_user (name : string) (db : Store) : option UserObj :=
  head (filter (λ u, User.username u.2 = name) (map_to_list (users db))).

(** ** Requests and responses *)

Inductive Method := GET | POST.

Inductive Response :=
| redirect (endpoint : string)
| render_template (name : string)
| render_index (user : UserObj) (transactions : list TransactionObj)
    (balance income expenses : pynum)
| render_settings (user : UserObj)
| csv_attachment (body : string)
| abort (code : Z).

(** A flashed message with its category. *)
Abbreviation Flash := (string * string)%type.

(** The session of a browser: the id of the logged-in user, if any. *)
Abbreviation Session := (option Z).

Record Outcome := mkOutcome {
  response : Response;
  flashed : list Flash;
  db_after : Store;
  session_after : Session
}.

Abbreviation View := (Store → Session → Outcome).

(** [current_user]: the user the session names, loaded by [load_user]. *)
Definition current_user (db : Store) (session : Session) : option UserObj :=
  uid ← session; u ← users db !! uid; Some (uid, u).

(** [@login_required]: an anonymous request is sent to the login view with
    flask-login's notice. *)
Definition login_required (view : UserObj → View) : View :=
  λ db session,
    match current_user db session with
    | Some user => view user db session
    | None =>
        mkOutcome (redirect "login")
          [("Please log in to access this page.", "message")] db session
    end.

(** ** Views *)

Definition same_month (now : datetime.t) (t : TransactionObj) : Prop :=
  datetime.month (Transaction.date t.2) = datetime.month now ∧
  datetime.year (Transaction.date t.2) = datetime.year now.

Global Instance same_month_dec now t : Decision (same_month now t).
Proof. unfold same_month. apply _. Defined.

Definition of_type (ty : string) (t : TransactionObj) : Prop :=
  Transaction.type t.2 = ty.

Global Instance of_type_dec ty t : Decision (of_type ty t).
Proof. unfold of_type. apply _. Defined.

Definition total_of (ty : string) (ts : list TransactionObj) : pynum :=
  py_sum ((λ t, Transaction.amount t.2) <$> filter (of_type ty) ts).

(** [index], with [now] the value of [datetime.now()]. *)
Definition index (now : datetime.t) : View :=
  login_required (λ current_user db session,
    let all_transactions := query_transactions current_user.1 db in
    let monthly_transactions := filter (same_month now) all_transactions in
    let total_income := total_of "Income" monthly_transactions in
    let total_expense := total_of "Expense" monthly_transactions in
    let balance := py_sub total_income total_expense in
    mkOutcome
      (render_index current_user monthly_transactions balance total_income
         total_expense)
      [] db session).

Definition logout : View :=
  login_required (λ _ db _, mkOutcome (redirect "login") [] db None).

Definition msg_exceeded (budget : float) : Flash :=
  ("⚠️ Alert! You exceeded your budget of ₦" +:+ format_2f true budget +:+ "!",
   "error").

Definition msg_income (amount : float) : Flash :=
  ("🤑 Nice! Income of ₦" +:+ format_2f true amount +:+ " added.", "success").

Definition msg_added : Flash := ("Transaction added successfully.", "success").

(** The message [add_transaction] flashes. *)
Definition add_alert (type : string) (amount budget : float) : Flash :=
  if bool_decide (type = "Expense") && float_gt amount budget
  then msg_exceeded budget
  else if bool_decide (type = "Income") then msg_income amount
  else msg_added.

(** [add_transaction]; [amount] is [float(request.form.get('amount'))] and
    [utcnow] the value the [date] column defaults to. *)
Definition add_transaction (description : string) (amount : option float)
    (type : string) (utcnow : datetime.t) : View :=
  login_required (λ current_user db session,
    match amount with
    | None => mkOutcome (abort 500) [] db session
    | Some amount =>
        let alert := add_alert type amount (User.budget current_user.2) in
        let new_trans :=
          Transaction.mk description amount type utcnow current_user.1 in
        mkOutcome (redirect "index") [alert]
          (mkStore (users db) (db_add new_trans (transactions db))) session
    end).

Definition delete_transaction (id : Z) : View :=
  login_required (λ current_user db session,
    match transactions db !! id with
    | None => mkOutcome (abort 404) [] db session
    | Some transaction =>
        if bool_decide (Transaction.user_id transaction = current_user.1)
        then mkOutcome (redirect "index") []
               (mkStore (users db) (delete id (transactions db))) session
        else mkOutcome (redirect "index") [] db session
    end).

Definition msg_budget_updated (new_budget : float) : Flash :=
  ("✅ Budget updated to ₦" +:+ format_2f true new_budget, "success").

(** [settings]; [budget] is [float(request.form.get('budget'))]. *)
Definition settings (method : Method) (budget : option float) : View :=
  login_required (λ current_user db session,
    match method with
    | POST =>
        match budget with
        | None => mkOutcome (abort 500) [] db session
        | Some new_budget =>
            mkOutcome (redirect "index") [msg_budget_updated new_budget]
              (mkStore
                 (<[current_user.1 := User.set_budget new_budget current_user.2]>
                    (users db))
                 (transactions db))
              session
        end
    | GET => mkOutcome (render_settings current_user) [] db session
    end).

Definition csv_header : list string :=
  ["Date"; "Description"; "Type"; "Amount (NGN)"].

Definition csv_row (t : TransactionObj) : list string :=
  [datetime.strftime_Ymd (Transaction.date t.2);
   Transaction.description t.2;
   Transaction.type t.2;
   format_2f false (Transaction.amount t.2)].

Definition concat_strings (l : list string) : string :=
  foldr String.append "" l.

Definition export_transactions : View :=
  login_required (λ current_user db session,
    let transactions := query_transactions current_user.1 db in
    mkOutcome
      (csv_attachment
         (writerow csv_header +:+ concat_strings (writerow ∘ csv_row <$> transactions)))
      [] db session).

(** ** Authentication *)

Section Auth.
(** werkzeug's password hashing: [generate_password_hash] with the salt
    it draws, and [check_password_hash pwhash password]. *)
Variable generate_password_hash : string → string → string.
Variable check_password_hash : string → string → bool.

Definition msg_login_failed : Flash :=
  ("Login Failed. Check your spelling.", "message").

Definition msg_username_exists : Flash :=
  ("Username already exists.", "message").

Definition login (method : Method) (username password : string) : View :=
  λ db session,
    match method with
    | POST =>
        match query_user username db with
        | Some user =>
            if check_password_hash (User.password user.2) password
            then mkOutcome (redirect "index") [] db (Some user.1)
            else mkOutcome (render_template "login.html") [msg_login_failed]
                   db session
        | None =>
            mkOutcome (render_template "login.html") [msg_login_failed]
              db session
        end
    | GET => mkOutcome (render_template "login.html") [] db session
    end.

Definition register (method : Method) (username password salt : string)
    : View :=
  λ db session,
    match method with
    | POST =>
        match query_user username db with
        | Some _ =>
            mkOutcome (redirect "register") [msg_username_exists] db session
        | None =>
            let hashed_pw := generate_password_hash password salt in
            let new_user := User.mk username hashed_pw User.default_budget in
            mkOutcome (redirect "index") []
              (mkStore (db_add new_user (users db)) (transactions db))
              (Some (next_id (users db)))
        end
    | GET => mkOutcome (render_template "register.html") [] db session
    end.

(** *** The application as a transition system *)

Inductive Request :=
| GetIndex (now : datetime.t)
| Login (method : Method) (username password : string)
| Register (method : Method) (username password salt : string)
| Logout
| Add (description : string) (amount : option float) (type : string)
    (utcnow : datetime.t)
| Delete (id : Z)
| Settings (method : Method) (budget : option float)
| Export.

Definition handle (r : Request) : View :=
  match r with
  | GetIndex now => index now
  | Login m u p => login m u p
  | Register m u p s => register m u p s
  | Logout => logout
  | Add d a t now => add_transaction d a t now
  | Delete id => delete_transaction id
  | Settings m b => settings m b
  | Export => export_transactions
  end.

(** The database and the sessions of the browsers talking to it. *)
Record World := mkWorld {
  db : Store;
  sessions : gmap nat Z
}.

Definition initial : World := mkWorld empty_store ∅.

(** Browser [c] sends request [r]. *)
Definition step (c : nat) (r : Request) (w : World) : World :=
  let out := handle r (db w) (sessions w !! c) in
  mkWorld (db_after out)
    (match session_after out with
     | Some uid => <[c := uid]> (sessions w)
     | None => delete c (sessions w)
     end).

Inductive reachable : World → Prop :=
| reachable_initial : reachable initial
| reachable_step c r w : reachable w → reachable (step c r w).
End Auth.

(** ** Kinds of request *)

(** The routes decorated with [@login_required]. *)
Definition protected (r : Request) : bool :=
  match r with
  | Login _ _ _ | Register _ _ _ _ => false
  | _ => true
  end.

(** The requests whose view reaches a [db.session.commit()]. *)
Definition may_write_db (r : Request) : bool :=
  match r with
  | Register POST _ _ _ | Add _ (Some _) _ _ | Delete _
  | Settings POST (Some _) => true
  | _ => false
  end.

(** The requests whose view reaches [login_user] or [logout_user]. *)
Definition may_write_session (r : Request) : bool :=
  match r with
  | Login POST _ _ | Register POST _ _ _ | Logout => true
  | _ => false
  end.

(** What [@login_required] answers to a request without a user. *)
Definition unauthorized (db : Store) (session : Session) : Outcome :=
  mkOutcome (redirect "login")
    [("Please log in to access this page.", "message")] db session.

(** [unique=True] on [User.username]. *)
Definition unique_usernames (db : Store) : Prop :=
  ∀ k1 k2 u1 u2,
    users db !! k1 = Some u1 → users db !! k2 = Some u2 →
    User.username u1 = User.username u2 → k1 = k2.

(** ** Later states *)

(** A request that writes the budget of user [uid]: a settings POST with a
    budget that parses, from a session of that user. *)
Definition updates_budget (uid : Z) (r : Request) (s : Session) : bool :=
  match r with
  | Settings POST (Some _) => bool_decide (s = Some uid)
  | _ => false
  end.

(** [later_same_budget uid db0 db]: [db] is reached from [db0] by requests
    of any sessions, none of which writes the budget of [uid]. *)
Inductive later_same_budget
    (generate_password_hash : string → string → string)
    (check_password_hash : string → string → bool)
    (uid : Z) (db0 : Store) : Store → Prop :=
| later_now :
    later_same_budget generate_password_hash check_password_hash uid db0 db0
| later_request db r s :
    later_same_budget generate_password_hash check_password_hash uid db0 db →
    updates_budget uid r s = false →
    later_same_budget generate_password_hash check_password_hash uid db0
      (db_after (handle generate_password_hash check_password_hash r db s)).

(** ** Invariants *)

(** Every transaction is owned by a user of the [User] table. *)
Definition owners_exist (db : Store) : Prop :=
  ∀ k t, transactions db !! k = Some t →
    is_Some (users db !! Transaction.user_id t).

(** A session names a user of the [User] table. *)
Definition session_valid (db : Store) (s : Session) : Prop :=
  ∀ uid, s = Some uid → is_Some (users db !! uid).

(** No user row is ever removed. *)
Definition users_kept (db db' : Store) : Prop :=
  ∀ k, is_Some (users db !! k) → is_Some (users db' !! k).

(** The invariant of the transition system. *)
Definition world_ok (w : World) : Prop :=
  owners_exist (db w) ∧ ∀ c, session_valid (db w) (sessions w !! c).

(** ** Example data *)

(** Stand-ins for werkzeug's hashing, to run the examples. *)
Definition toy_generate_password_hash (password salt : string) : string :=
  "pbkdf2:sha256:" +:+ password.

Definition toy_check_password_hash (pwhash password : string) : bool :=
  bool_decide (pwhash = "pbkdf2:sha256:" +:+ password).

Definition demo_now : datetime.t := datetime.mk 2024 3 7 12 0 0 0.

Definition demo_user : UserObj :=
  (1, User.mk "ada" "pbkdf2:sha256:lovelace" 5000%float).

Definition other_user : UserObj :=
  (2, User.mk "bo" "pbkdf2:sha256:secret" 5000%float).

Definition demo_grant : Transaction.t :=
  Transaction.mk "grant" 1200.5%float "Income" (datetime.mk 2024 3 1 9 30 0 0) 1.

Definition demo_rent : Transaction.t :=
  Transaction.mk "rent" 900%float "Expense" (datetime.mk 2024 2 27 8 0 0 0) 1.

Definition demo_db : Store :=
  mkStore {[ 1 := demo_user.2; 2 := other_user.2 ]}
          {[ 1 := demo_grant; 2 := demo_rent ]}.

(** [other_user] after lending an unbounded amount: [float] accepts the
    text [inf]. *)
Definition inf_db : Store :=
  db_after
    (add_transaction "loan" (Some infinity) "Income" demo_now demo_db (Some 2)).


(** Two browsers register one after the other. *)
Definition demo_world : World :=
  step toy_generate_password_hash toy_check_password_hash 1
    (Register POST "bo" "secret" "pepper")
    (step toy_generate_password_hash toy_check_password_hash 0
       (Register POST "ada" "lovelace" "salt") initial).

(** * Properties *)

(** ** Keys *)

Lemma max_key_bound {A} (m : gmap Z A) k v : m !! k = Some v → k ≤ max_key m.
Proof.
  unfold max_key. revert k v.
  apply (map_fold_weak_ind (λ r m, ∀ k v, m !! k = Some v → k ≤ r)).
  - intros k v H. by rewrite lookup_empty in H.
  - intros i x m' r Hi IH k v H.
    destruct (decide (k = i)) as [->|Hne].
    + lia.
    + rewrite lookup_insert_ne in H by done. specialize (IH _ _ H). lia.
Qed.

Lemma next_id_fresh {A} (m : gmap Z A) : m !! next_id m = None.
Proof.
  destruct (m !! next_id m) as [v|] eqn:E; [|done].
  apply max_key_bound in E. unfold next_id in E. lia.
Qed.

Lemma db_add_lookup {A} (row : A) (m : gmap Z A) k :
  db_add row m !! k = if decide (k = next_id m) then Some row else m !! k.
Proof.
  unfold db_add. destruct (decide (k = next_id m)) as [->|Hne].
  - by rewrite lookup_insert_eq.
  - by rewrite lookup_insert_ne.
Qed.

Lemma db_add_old {A} (row : A) (m : gmap Z A) k v :
  m !! k = Some v → db_add row m !! k = Some v.
Proof.
  intros H. rewrite db_add_lookup. destruct (decide (k = next_id m)) as [->|]; [|done].
  by rewrite next_id_fresh in H.
Qed.

(** ** Ordering by date *)

Lemma lex_compare_antisym a b :
  datetime.lex_compare b a = CompOpp (datetime.lex_compare a b).
Proof.
  revert b. induction a as [|x a IH]; intros [|y b]; simpl; try done.
  rewrite (Z.compare_antisym x y). destruct (x ?= y); simpl; auto.
Qed.

Lemma lex_compare_ge_trans a b c :
  datetime.lex_compare a b ≠ Lt → datetime.lex_compare b c ≠ Lt →
  datetime.lex_compare a c ≠ Lt.
Proof.
  revert b c. induction a as [|x a IH]; intros [|y b] [|z c]; simpl; try done.
  destruct (Z.compare_spec x y), (Z.compare_spec y z), (Z.compare_spec x z);
    try done; try lia; eauto.
Qed.

Global Instance date_desc_total : Total date_desc.
Proof.
  intros a b. unfold date_desc, datetime.compare.
  rewrite (lex_compare_antisym (datetime.fields (Transaction.date a.2))).
  destruct (datetime.lex_compare _ _); simpl; auto.
Qed.

Global Instance date_desc_trans : Transitive date_desc.
Proof. intros a b c. unfold date_desc, datetime.compare. apply lex_compare_ge_trans. Qed.

(** ** Queries *)

Lemma query_transactions_perm uid db :
  query_transactions uid db ≡ₚ
    filter (λ t, Transaction.user_id t.2 = uid) (map_to_list (transactions db)).
Proof. apply merge_sort_Permutation. Qed.

Lemma query_transactions_elem uid db t :
  t ∈ query_transactions uid db ↔
    transactions db !! t.1 = Some t.2 ∧ Transaction.user_id t.2 = uid.
Proof.
  rewrite query_transactions_perm, list_elem_of_filter, elem_of_map_to_list'.
  tauto.
Qed.

Lemma query_transactions_NoDup uid db : NoDup (query_transactions uid db).
Proof.
  rewrite query_transactions_perm. apply NoDup_filter, NoDup_map_to_list.
Qed.

Lemma query_transactions_sorted uid db :
  StronglySorted date_desc (query_transactions uid db).
Proof. apply StronglySorted_merge_sort; apply _. Qed.

Lemma query_user_Some name db u :
  query_user name db = Some u →
  users db !! u.1 = Some u.2 ∧ User.username u.2 = name.
Proof.
  unfold query_user. intros H. apply head_Some_elem_of in H.
  apply list_elem_of_filter in H as [? H]. by apply elem_of_map_to_list' in H.
Qed.

Lemma query_user_None name db :
  query_user name db = None ↔
  ∀ k u, users db !! k = Some u → User.username u ≠ name.
Proof.
  unfold query_user. rewrite head_None. split.
  - intros H k u Hk Hn.
    assert ((k, u) ∈ filter (λ u, User.username u.2 = name) (map_to_list (users db))) as Hin.
    { apply list_elem_of_filter. split; [done|]. by apply elem_of_map_to_list. }
    rewrite H in Hin. by apply elem_of_nil in Hin.
  - intros H. apply elem_of_nil_inv. intros [k u] Hin.
    apply list_elem_of_filter in Hin as [Hn Hin].
    apply elem_of_map_to_list in Hin. by eapply H.
Qed.

(** ** Decimal text *)

Lemma digit_char_is_digit d : 0 ≤ d < 10 → is_digit (digit_char d) = true.
Proof.
  intros H.
  assert (d = 0 ∨ d = 1 ∨ d = 2 ∨ d = 3 ∨ d = 4 ∨ d = 5 ∨ d = 6 ∨ d = 7 ∨
          d = 8 ∨ d = 9) as Hd by lia.
  repeat destruct Hd as [->|Hd]; try subst d; reflexivity.
Qed.

Lemma string_of_uint_digits d :
  all_digits (DecimalString.NilEmpty.string_of_uint d) = true.
Proof. induction d; simpl; auto. Qed.

Lemma decimal_all_digits n : all_digits (decimal n) = true.
Proof.
  unfold decimal, NilZero.string_of_uint.
  destruct (N.to_uint (Z.to_N n)) eqn:E; try reflexivity;
    rewrite <- E; apply string_of_uint_digits.
Qed.

Lemma decimal_nonempty n : decimal n ≠ "".
Proof.
  unfold decimal, NilZero.string_of_uint.
  destruct (N.to_uint (Z.to_N n)); simpl; discriminate.
Qed.

Lemma point_two_digits_app whole a b :
  all_digits whole = true → is_digit a = true → is_digit b = true →
  point_two_digits (whole +:+ "." +:+ String a (String b "")) = true.
Proof.
  intros Hw Ha Hb. induction whole as [|c whole IH]; simpl.
  - by rewrite Ha, Hb.
  - unfold all_digits in Hw. simpl in Hw. apply andb_true_iff in Hw as [Hc Hw].
    rewrite Hc. by apply IH.
Qed.

Lemma unsigned_two_decimals_app whole a b :
  whole ≠ "" → all_digits whole = true → is_digit a = true → is_digit b = true →
  unsigned_two_decimals (whole +:+ "." +:+ String a (String b "")) = true.
Proof.
  intros Hne Hw Ha Hb. destruct whole as [|c whole]; [done|]. simpl.
  unfold all_digits in Hw. simpl in Hw. apply andb_true_iff in Hw as [Hc Hw].
  rewrite Hc. by apply point_two_digits_app.
Qed.

Lemma two_decimals_signed s u :
  unsigned_two_decimals u = true → two_decimals (sign_text s +:+ u) = true.
Proof.
  intros Hu. destruct s.
  - exact Hu.
  - change (two_decimals u = true). destruct u as [|c u]; [done|]. unfold two_decimals.
    case_bool_decide as Hc; [|done]. subst c. by simpl in Hu.
Qed.

(** A finite amount is printed by [.2f] with exactly two decimals. *)
Lemma format_2f_two_decimals x :
  is_finite x = true → two_decimals (format_2f false x) = true.
Proof.
  unfold is_finite, format_2f. destruct (Prim2SF x) as [s|s| |s m e]; try done.
  - intros _. by destruct s.
  - intros _. apply two_decimals_signed, unsigned_two_decimals_app.
    + apply decimal_nonempty.
    + apply decimal_all_digits.
    + apply digit_char_is_digit.
      pose proof (Z.mod_pos_bound (hundredths m e) 100). 
      assert (0 ≤ hundredths m e `mod` 100 < 100) by lia.
      split; [apply Z.div_pos; lia | apply Z.div_lt_upper_bound; lia].
    + apply digit_char_is_digit. apply Z.mod_pos_bound. lia.
Qed.

(** An infinity or a NaN is printed without decimals. *)
Lemma format_2f_not_finite g x :
  is_finite x = false →
  format_2f g x = "inf" ∨ format_2f g x = "-inf" ∨ format_2f g x = "nan".
Proof.
  unfold is_finite, format_2f. destruct (Prim2SF x) as [s|s| |s m e]; try done.
  - destruct s; auto.
  - auto.
Qed.

Lemma zero_pad_4 y : 0 ≤ y ≤ 9999 → n_digits 4 (zero_pad 4 y) = true.
Proof.
  intros H.
  assert (Forall (λ y, n_digits 4 (zero_pad 4 y) = true) (seqZ 0 10000)) as HF.
  { apply (bool_decide_eq_true_1 _). vm_compute. reflexivity. }
  rewrite Forall_forall in HF. apply HF, elem_of_seqZ. lia.
Qed.

Lemma zero_pad_2 n : 0 ≤ n ≤ 99 → n_digits 2 (zero_pad 2 n) = true.
Proof.
  intros H.
  assert (Forall (λ n, n_digits 2 (zero_pad 2 n) = true) (seqZ 0 100)) as HF.
  { apply (bool_decide_eq_true_1 _). vm_compute. reflexivity. }
  rewrite Forall_forall in HF. apply HF, elem_of_seqZ. lia.
Qed.

Lemma is_Ymd_intro y m d :
  n_digits 4 y = true → n_digits 2 m = true → n_digits 2 d = true →
  is_Ymd (y +:+ "-" +:+ m +:+ "-" +:+ d) = true.
Proof.
  destruct y as [|y1 [|y2 [|y3 [|y4 [|]]]]]; try done.
  destruct m as [|m1 [|m2 [|]]]; try done.
  destruct d as [|d1 [|d2 [|]]]; try done.
  unfold n_digits, all_digits, is_Ymd. cbv [String.append]. cbn.
  intros Hy Hm Hd.
  repeat match goal with H : _ && _ = true |- _ => apply andb_true_iff in H as [??] end.
  repeat match goal with H : is_digit _ = true |- _ => rewrite H; clear H end.
  reflexivity.
Qed.

(** A date is exported as [YYYY-MM-DD]. *)
Lemma strftime_Ymd_shape d :
  datetime.valid d → is_Ymd (datetime.strftime_Ymd d) = true.
Proof.
  intros (?&?&?&_). unfold datetime.strftime_Ymd.
  apply is_Ymd_intro; [apply zero_pad_4 | apply zero_pad_2 | apply zero_pad_2]; lia.
Qed.

(** ** Values checked against the interpreter *)

Example format_grouping :
  format_2f true 1234567.891%float = "1,234,567.89" ∧
  format_2f true 999.995%float = "1,000.00" ∧
  format_2f true 5000%float = "5,000.00".
Proof. repeat split; reflexivity. Qed.

Example format_half_even :
  format_2f false 0.125%float = "0.12" ∧
  format_2f false 2.675%float = "2.67" ∧
  format_2f false (-0.001)%float = "-0.00".
Proof. repeat split; reflexivity. Qed.

Example sum_starts_from_int :
  py_sum [] = PyInt 0 ∧
  py_sum [0.1%float; 0.2%float] = PyFloat 0.30000000000000004%float.
Proof. split; reflexivity. Qed.

Example writerow_quotes :
  writerow ["a,b"; "c"] =
    String quotechar "a,b" +:+ String quotechar ",c" +:+ lineterminator.
Proof. reflexivity. Qed.

Example strftime_pads :
  datetime.strftime_Ymd (datetime.mk 2024 3 7 1 2 3 4) = "2024-03-07".
Proof. reflexivity. Qed.

(** ** The logged-in user *)

Lemma login_required_user view db session user :
  current_user db session = Some user →
  login_required view db session = view user db session.
Proof. unfold login_required. by intros ->. Qed.

Lemma current_user_lookup db session user :
  current_user db session = Some user ↔
  session = Some user.1 ∧ users db !! user.1 = Some user.2.
Proof.
  unfold current_user. destruct user as [uid u]. simpl. split.
  - destruct session as [s|]; simpl; [|done].
    destruct (users db !! s) eqn:E; simpl; [|done].
    intros [= -> ->]. done.
  - intros [-> H]. simpl. by rewrite H.
Qed.

(** ** The dashboard *)



(** ** Deleting *)



(** ** Adding *)


Lemma settings_post_user b db session user :
  current_user db session = Some user →
  settings POST (Some b) db session =
    mkOutcome (redirect "index") [msg_budget_updated b]
      (mkStore (<[user.1 := User.set_budget b user.2]> (users db)) (transactions db))
      session.
Proof. intros Hu. unfold settings. by rewrite (login_required_user _ _ _ _ Hu). Qed.

Lemma settings_post_current_user b db session user :
  current_user db session = Some user →
  current_user (db_after (settings POST (Some b) db session)) session =
    Some (user.1, User.set_budget b user.2).
Proof.
  intros Hu. rewrite (settings_post_user _ _ _ _ Hu). simpl.
  apply current_user_lookup in Hu as [-> _]. apply current_user_lookup. simpl.
  split; [done|]. apply lookup_insert_eq.
Qed.





(** ** Registration and login *)

Section AuthProperties.
Variable generate_password_hash : string → string → string.
Variable check_password_hash : string → string → bool.

(** C5: a registration under a username some user already has flashes
    the duplicate notice, redirects to the registration page and leaves the
    database and the session as they were; under a fresh username it
    stores, under a new id, a user with that name, the hash
    [generate_password_hash] returns for the password and the budget
    5000.0, keeps every other row, logs that user in and redirects to the
    dashboard. *)
Theorem C5_register username password salt db session :
  let out := register generate_password_hash POST username password salt db session in
  ((∃ k u, users db !! k = Some u ∧ User.username u = username) →
     out = mkOutcome (redirect "register")
             [("Username already exists.", "message")] db session) ∧
  ((∀ k u, users db !! k = Some u → User.username u ≠ username) →
     ∃ uid,
       users db !! uid = None ∧
       users (db_after out) !! uid =
         Some (User.mk username (generate_password_hash password salt)
                 5000.0%float) ∧
       (∀ k, k ≠ uid → users (db_after out) !! k = users db !! k) ∧
       transactions (db_after out) = transactions db ∧
       session_after out = Some uid ∧
       response out = redirect "index" ∧ flashed out = []).
Proof.
  intros out. subst out. unfold register. split.
  - intros (k & u & Hk & Hn).
    destruct (query_user username db) as [u'|] eqn:Hq; [done|].
    exfalso. rewrite query_user_None in Hq. by eapply Hq.
  - intros Hfresh. apply query_user_None in Hfresh. rewrite Hfresh. simpl.
    exists (next_id (users db)).
    split; [apply next_id_fresh|]. split; [apply lookup_insert_eq|].
    split; [|done]. intros k Hk. by apply lookup_insert_ne.
Qed.

(** C6: a login that succeeds (redirects to the dashboard) found a user
    of that username whose stored hash [check_password_hash] accepts for
    the password, and logs that user in; when every user of that
    username is rejected by [check_password_hash], and in particular when
    there is none, the outcome is one and the same: the login page with
    the generic failure notice, the database and the session as before. *)
Theorem C6_login username password db session :
  let out := login check_password_hash POST username password db session in
  let failed :=
    mkOutcome (render_template "login.html")
      [("Login Failed. Check your spelling.", "message")] db session in
  (response out = redirect "index" →
     ∃ uid u, users db !! uid = Some u ∧ User.username u = username ∧
       check_password_hash (User.password u) password = true ∧
       session_after out = Some uid ∧ db_after out = db) ∧
  (response out ≠ redirect "index" → out = failed) ∧
  ((∀ k u, users db !! k = Some u → User.username u = username →
      check_password_hash (User.password u) password = false) →
     out = failed).
Proof.
  intros out failed. subst out failed. unfold login.
  destruct (query_user username db) as [[uid u]|] eqn:Hq.
  - apply query_user_Some in Hq as [Hk Hn]. simpl in *.
    destruct (check_password_hash (User.password u) password) eqn:Hc; simpl.
    + split; [|split].
      * intros _. by exists uid, u.
      * done.
      * intros Hall. specialize (Hall _ _ Hk Hn). congruence.
    + split; [done|]. split; done.
  - simpl. split; [done|]. split; done.
Qed.
End AuthProperties.

Lemma C5_register_witness :
  (∃ k u, users demo_db !! k = Some u ∧ User.username u = "ada") ∧
  register toy_generate_password_hash POST "ada" "again" "salt" demo_db None =
    mkOutcome (redirect "register") [("Username already exists.", "message")]
      demo_db None.
Proof.
  assert (∃ k u, users demo_db !! k = Some u ∧ User.username u = "ada") as Hdup.
  { exists 1, demo_user.2. split; reflexivity. }
  split; [exact Hdup|].
  apply (C5_register toy_generate_password_hash "ada" "again" "salt" demo_db None).
  exact Hdup.
Defined.

Lemma C6_login_witness :
  response (login toy_check_password_hash POST "ada" "lovelace" demo_db None) =
    redirect "index" ∧
  ∃ uid u, users demo_db !! uid = Some u ∧ User.username u = "ada" ∧
    toy_check_password_hash (User.password u) "lovelace" = true ∧
    session_after (login toy_check_password_hash POST "ada" "lovelace" demo_db None)
      = Some uid ∧
    db_after (login toy_check_password_hash POST "ada" "lovelace" demo_db None)
      = demo_db.
Proof.
  split; [reflexivity|].
  apply (C6_login toy_check_password_hash "ada" "lovelace" demo_db None).
  reflexivity.
Defined.

(** ** Export *)

Lemma export_transactions_user db session user :
  current_user db session = Some user →
  export_transactions db session =
    mkOutcome
      (csv_attachment
         (writerow csv_header +:+
          concat_strings (writerow ∘ csv_row <$> query_transactions user.1 db)))
      [] db session.
Proof. intros Hu. unfold export_transactions. by rewrite (login_required_user _ _ _ _ Hu). Qed.

(** C7, as the code has it: for a logged-in user, [export_transactions]
    answers with the header row [Date,Description,Type,Amount (NGN)]
    followed by one row for each transaction the user owns, of any month,
    each once, in descending order of date; a row holds the date as
    [YYYY-MM-DD], the description, the type and the amount printed by
    [.2f]: with exactly two decimals when the amount is finite, as [inf],
    [-inf] or [nan] when it is not.  With no transaction the body is the
    header row alone. *)
Theorem C7_export_transactions db session user :
  current_user db session = Some user →
  ∃ rows,
    export_transactions db session =
      mkOutcome
        (csv_attachment
           (writerow csv_header +:+ concat_strings (writerow ∘ csv_row <$> rows)))
        [] db session ∧
    writerow csv_header = "Date,Description,Type,Amount (NGN)" +:+ lineterminator ∧
    (∀ t, t ∈ rows ↔
       transactions db !! t.1 = Some t.2 ∧ Transaction.user_id t.2 = user.1) ∧
    NoDup rows ∧
    StronglySorted
      (λ a b, datetime.compare (Transaction.date a.2) (Transaction.date b.2) ≠ Lt)
      rows ∧
    (∀ t, t ∈ rows →
       ∃ date_text amount_text,
         csv_row t =
           [date_text; Transaction.description t.2; Transaction.type t.2;
            amount_text] ∧
         (datetime.valid (Transaction.date t.2) → is_Ymd date_text = true) ∧
         (is_finite (Transaction.amount t.2) = true →
            two_decimals amount_text = true) ∧
         (is_finite (Transaction.amount t.2) = false →
            amount_text = "inf" ∨ amount_text = "-inf" ∨ amount_text = "nan")) ∧
    ((∀ k t, transactions db !! k = Some t → Transaction.user_id t ≠ user.1) →
       response (export_transactions db session) =
         csv_attachment ("Date,Description,Type,Amount (NGN)" +:+ lineterminator)).
Proof.
  intros Hu. exists (query_transactions user.1 db).
  split; [by apply export_transactions_user|].
  split; [reflexivity|].
  split; [apply query_transactions_elem|].
  split; [apply query_transactions_NoDup|].
  split; [apply query_transactions_sorted|].
  split.
  - intros t _. eexists _, _. split; [reflexivity|].
    split; [apply strftime_Ymd_shape|].
    split; [apply format_2f_two_decimals | apply format_2f_not_finite].
  - intros Hnone. rewrite (export_transactions_user _ _ _ Hu). simpl.
    assert (query_transactions user.1 db = []) as ->; [|reflexivity].
    apply elem_of_nil_inv. intros [k t] Ht.
    apply query_transactions_elem in Ht as [Hk Ho]. by eapply Hnone.
Qed.

Lemma C7_export_transactions_witness :
  current_user demo_db (Some 1) = Some demo_user ∧
  ∃ rows,
    export_transactions demo_db (Some 1) =
      mkOutcome
        (csv_attachment
           (writerow csv_header +:+ concat_strings (writerow ∘ csv_row <$> rows)))
        [] demo_db (Some 1) ∧
    NoDup rows.
Proof.
  split; [reflexivity|].
  destruct (C7_export_transactions demo_db (Some 1) demo_user)
    as (rows & H1 & _ & _ & H2 & _); [reflexivity|].
  exists rows. split; assumption.
Defined.

(** An amount of [inf] is exported as [inf], without decimals. *)
Lemma C7_counterexample :
  current_user inf_db (Some 2) = Some other_user ∧
  response (export_transactions inf_db (Some 2)) =
    csv_attachment
      ("Date,Description,Type,Amount (NGN)" +:+ lineterminator +:+
       "2024-03-07,loan,Income,inf" +:+ lineterminator) ∧
  two_decimals "inf" = false.
Proof. split; [|split]; vm_compute; reflexivity. Qed.

(** ** Reachable states *)

Section Transitions.
Variable generate_password_hash : string → string → string.
Variable check_password_hash : string → string → bool.

Local Abbreviation app_handle :=
  (handle generate_password_hash check_password_hash).
Local Abbreviation app_step :=
  (step generate_password_hash check_password_hash).
Local Abbreviation app_reachable :=
  (reachable generate_password_hash check_password_hash).

Lemma current_user_is_Some db s uid u :
  current_user db s = Some (uid, u) → s = Some uid ∧ users db !! uid = Some u.
Proof. intros H. by apply current_user_lookup in H. Qed.

Lemma users_kept_refl db : users_kept db db.
Proof. by intros k. Qed.

Lemma owners_exist_kept db db' :
  owners_exist db → users_kept db db' → transactions db' = transactions db →
  owners_exist db'.
Proof. intros Ho Hk Ht k t H. rewrite Ht in H. eauto. Qed.

Lemma session_valid_kept db db' s :
  session_valid db s → users_kept db db' → session_valid db' s.
Proof. intros Hs Hk uid ->. eauto. Qed.

Ltac unchanged := split; [done | split; [done | apply users_kept_refl]].

Lemma handle_preserves r db s :
  owners_exist db → session_valid db s →
  owners_exist (db_after (app_handle r db s)) ∧
  session_valid (db_after (app_handle r db s)) (session_after (app_handle r db s)) ∧
  users_kept db (db_after (app_handle r db s)).
Proof.
  intros Ho Hs.
  destruct r as [now|m name pw|m name pw salt| |d a ty now|id|m b|]; simpl.
  - unfold index, login_required. destruct (current_user db s); unchanged.
  - unfold login. destruct m; [unchanged|].
    destruct (query_user name db) as [[uid u]|] eqn:Hq; [|unchanged].
    destruct (check_password_hash _ _); [|unchanged]. simpl.
    split; [done|]. split; [|apply users_kept_refl].
    apply query_user_Some in Hq as [Hq _]. intros ? [= <-]. eauto.
  - unfold register. destruct m; [unchanged|].
    destruct (query_user name db); [unchanged|]. simpl.
    assert (users_kept db
      (mkStore (db_add (User.mk name (generate_password_hash pw salt)
                          User.default_budget) (users db))
         (transactions db))) as Hk.
    { intros k [u Hu]. exists u. by apply db_add_old. }
    split; [by eapply owners_exist_kept|]. split; [|done].
    intros ? [= <-]. simpl. unfold db_add. rewrite lookup_insert_eq. eauto.
  - unfold logout, login_required.
    destruct (current_user db s); [|unchanged]. simpl.
    split; [done|]. split; [by intros ?|apply users_kept_refl].
  - unfold add_transaction, login_required.
    destruct (current_user db s) as [[uid u]|] eqn:Hu; [|unchanged].
    destruct a as [a|]; [|unchanged]. simpl.
    apply current_user_is_Some in Hu as [-> Hu].
    split; [|split; [exact Hs|by intros ?]].
    intros k t. simpl. rewrite db_add_lookup.
    case_decide; [|by apply Ho]. intros [= <-]. simpl. eauto.
  - unfold delete_transaction, login_required.
    destruct (current_user db s) as [[uid u]|]; [|unchanged].
    destruct (transactions db !! id); [|unchanged].
    case_bool_decide; [|unchanged]. simpl.
    split; [|split; [exact Hs|by intros ?]].
    intros k t'. simpl. rewrite lookup_delete_Some.
    intros [_ Hk]. by eapply Ho.
  - unfold settings, login_required.
    destruct (current_user db s) as [[uid u]|] eqn:Hu; [|unchanged].
    destruct m; [unchanged|]. destruct b as [b|]; [|unchanged]. simpl.
    assert (users_kept db
      (mkStore (<[uid := User.set_budget b u]> (users db)) (transactions db)))
      as Hk.
    { intros k Hsome. simpl. destruct (decide (k = uid)) as [->|Hne].
      - rewrite lookup_insert_eq. eauto.
      - by rewrite lookup_insert_ne. }
    split; [by eapply owners_exist_kept|].
    split; [by eapply session_valid_kept|done].
  - unfold export_transactions, login_required. destruct (current_user db s); unchanged.
Qed.

Lemma step_preserves c r w : world_ok w → world_ok (app_step c r w).
Proof.
  intros [Ho Hs].
  destruct (handle_preserves r (db w) (sessions w !! c) Ho (Hs c))
    as (Ho' & Hs' & Hk).
  split; [done|]. intros c'. unfold step. simpl.
  destruct (session_after _) as [uid|] eqn:Hsa.
  - destruct (decide (c' = c)) as [->|Hne].
    + rewrite lookup_insert_eq. done.
    + rewrite lookup_insert_ne by done. eapply session_valid_kept; eauto.
  - destruct (decide (c' = c)) as [->|Hne].
    + rewrite lookup_delete_eq. by intros ?.
    + rewrite lookup_delete_ne by done. eapply session_valid_kept; eauto.
Qed.

Lemma reachable_ok w : app_reachable w → world_ok w.
Proof.
  induction 1 as [|c r w _ IH].
  - split; [intros k t H|intros c uid H]; cbn in H; by rewrite lookup_empty in H.
  - by apply step_preserves.
Qed.

End Transitions.




(** ** Budget settings *)

Section Budget.
Variable generate_password_hash : string → string → string.
Variable check_password_hash : string → string → bool.

Local Abbreviation app_handle :=
  (handle generate_password_hash check_password_hash).
Local Abbreviation later :=
  (later_same_budget generate_password_hash check_password_hash).

(** A request that does not write the budget of [uid] leaves the row of
    [uid] as it was. *)
Lemma handle_keeps_user r db s uid u :
  users db !! uid = Some u → updates_budget uid r s = false →
  users (db_after (app_handle r db s)) !! uid = Some u.
Proof.
  intros Hu Hno.
  destruct r as [now|m name pw|m name pw salt| |d a ty now|id|m b|]; simpl.
  - unfold index, login_required. by destruct (current_user db s).
  - unfold login. destruct m; [done|].
    destruct (query_user name db); [|done].
    by destruct (check_password_hash _ _).
  - unfold register. destruct m; [done|].
    destruct (query_user name db); [done|]. simpl. by apply db_add_old.
  - unfold logout, login_required. by destruct (current_user db s).
  - unfold add_transaction, login_required.
    destruct (current_user db s); [|done]. by destruct a.
  - unfold delete_transaction, login_required.
    destruct (current_user db s); [|done].
    destruct (transactions db !! id); [|done]. by case_bool_decide.
  - unfold settings, login_required.
    destruct (current_user db s) as [[uid' u']|] eqn:Hcu; [|done].
    destruct m; [done|]. destruct b as [b|]; [|done]. simpl.
    apply current_user_lookup in Hcu as [-> _]. simpl in Hno.
    apply bool_decide_eq_false_1 in Hno.
    rewrite lookup_insert_ne; [done|]. intros ->. done.
  - unfold export_transactions, login_required. by destruct (current_user db s).
Qed.


End Budget.


(** ** Other categories *)




(** * Further properties of the views *)

Section Views.
Variable generate_password_hash : string → string → string.
Variable check_password_hash : string → string → bool.

(** ** The guard of the protected routes *)

Lemma handle_unauthorized r db session :
  let out := handle generate_password_hash check_password_hash r db session in
  protected r = true → current_user db session = None →
  out = unauthorized db session.
Proof. cbv zeta.
  intros Hp Hu.
  destruct r; simpl in Hp; try discriminate; simpl;
    unfold index, logout, add_transaction, delete_transaction, settings,
      export_transactions, login_required; by rewrite Hu.
Qed.

(** X1: a protected route asked by a session that names no user answers
    with the redirect to the login page and flask-login's notice, and leaves
    the database and the session as they were. *)
Theorem X1_protected_routes_need_a_user r db session :
  let out := handle generate_password_hash check_password_hash r db session in
  protected r = true →
  current_user db session = None →
  out =
    mkOutcome (redirect "login")
      [("Please log in to access this page.", "message")] db session.
Proof. cbv zeta. apply handle_unauthorized. Qed.

(** X2: [logout] by a logged-in user ends the session, redirects to the
    login page, flashes nothing and leaves the database alone; every
    protected route asked next by that browser is refused. *)
Theorem X2_logout_ends_the_session db session user :
  current_user db session = Some user →
  logout db session = mkOutcome (redirect "login") [] db None ∧
  ∀ r, protected r = true →
    handle generate_password_hash check_password_hash r (db_after (logout db session))
      (session_after (logout db session)) =
      mkOutcome (redirect "login")
        [("Please log in to access this page.", "message")] db None.
Proof.
  intros Hu.
  assert (logout db session = mkOutcome (redirect "login") [] db None) as Hl.
  { unfold logout. by rewrite (login_required_user _ _ _ _ Hu). }
  split; [exact Hl|]. intros r Hr. rewrite Hl. simpl.
  by apply handle_unauthorized.
Qed.

(** ** What a request can write *)

(** X3: the database changes only through a register POST, an add whose
    amount parses, a delete or a settings POST whose budget parses; the
    session changes only through a login POST, a register POST or a
    logout. *)
Theorem X3_writes_are_confined r db session :
  let out := handle generate_password_hash check_password_hash r db session in
  (may_write_db r = false → db_after out = db) ∧
  (may_write_session r = false →
     session_after out = session).
Proof. cbv zeta.
  split; intros Hw;
    destruct r as [now|m name pw|m name pw salt| |d a ty now|id|m b|];
    simpl in *; try discriminate;
    unfold index, login, register, logout, add_transaction, delete_transaction,
      settings, export_transactions, login_required;
    repeat match goal with
      | |- context [match ?x with _ => _ end] => destruct x; try discriminate
      | |- context [if ?x then _ else _] => destruct x
      end; reflexivity.
Qed.

Lemma handle_transaction_kept r db session k t :
  let out := handle generate_password_hash check_password_hash r db session in
  transactions db !! k = Some t →
  transactions (db_after out) !! k = Some t ∨
  (transactions (db_after out) !! k = None ∧
   r = Delete k ∧ session = Some (Transaction.user_id t)).
Proof. cbv zeta.
  intros Ht.
  destruct r as [now|m name pw|m name pw salt| |d a ty now|id|m b|]; simpl.
  - left. unfold index, login_required. by destruct (current_user db session).
  - left. unfold login. destruct m; [done|].
    destruct (query_user name db); [|done].
    by destruct (check_password_hash _ _).
  - left. unfold register. destruct m; [done|].
    by destruct (query_user name db).
  - left. unfold logout, login_required. by destruct (current_user db session).
  - left. unfold add_transaction, login_required.
    destruct (current_user db session); [|done].
    destruct a; [|done]. simpl. by apply db_add_old.
  - unfold delete_transaction, login_required.
    destruct (current_user db session) as [[uid u]|] eqn:Hu; [|by left].
    destruct (transactions db !! id) as [t'|] eqn:Hid; [|by left].
    case_bool_decide as Hown; [|by left]. simpl.
    destruct (decide (k = id)) as [->|Hne].
    + right. rewrite lookup_delete_eq. split; [done|]. split; [done|].
      apply current_user_lookup in Hu as [-> _]. simpl in *. congruence.
    + left. by rewrite lookup_delete_ne.
  - left. unfold settings, login_required.
    destruct (current_user db session); [|done].
    destruct m; [done|]. by destruct b.
  - left. unfold export_transactions, login_required.
    by destruct (current_user db session).
Qed.

(** X4: no request rewrites a stored transaction: a row either stays as
    it is or is gone, and it is gone only after a delete of its id from a
    session of its owner. *)
Theorem X4_transactions_are_never_rewritten r db session k t :
  let out := handle generate_password_hash check_password_hash r db session in
  transactions db !! k = Some t →
  transactions (db_after out) !! k = Some t ∨
  (transactions (db_after out) !! k = None ∧
   r = Delete k ∧ session = Some (Transaction.user_id t)).
Proof. cbv zeta. apply handle_transaction_kept. Qed.

Lemma handle_transaction_new r db session k t :
  let out := handle generate_password_hash check_password_hash r db session in
  transactions db !! k = None →
  transactions (db_after out) !! k = Some t →
  ∃ description amount type utcnow uid,
    r = Add description (Some amount) type utcnow ∧
    session = Some uid ∧ is_Some (users db !! uid) ∧
    t = Transaction.mk description amount type utcnow uid.
Proof. cbv zeta.
  intros Hk.
  destruct r as [now|m name pw|m name pw salt| |d a ty now|id|m b|]; simpl.
  - unfold index, login_required.
    destruct (current_user db session); simpl; congruence.
  - unfold login. destruct m; [simpl; congruence|].
    destruct (query_user name db); [|simpl; congruence].
    destruct (check_password_hash _ _); simpl; congruence.
  - unfold register. destruct m; [simpl; congruence|].
    destruct (query_user name db); simpl; congruence.
  - unfold logout, login_required.
    destruct (current_user db session); simpl; congruence.
  - unfold add_transaction, login_required.
    destruct (current_user db session) as [[uid u]|] eqn:Hu;
      [|simpl; congruence].
    destruct a as [a|]; [|simpl; congruence]. simpl.
    rewrite db_add_lookup. case_decide; [|congruence].
    intros [= <-]. apply current_user_lookup in Hu as [-> Hu].
    exists d, a, ty, now, uid. simpl in *. eauto.
  - unfold delete_transaction, login_required.
    destruct (current_user db session); [|simpl; congruence].
    destruct (transactions db !! id); [|simpl; congruence].
    case_bool_decide; [|simpl; congruence]. simpl.
    rewrite lookup_delete_Some. intros [_ ?]. congruence.
  - unfold settings, login_required.
    destruct (current_user db session); [|simpl; congruence].
    destruct m; [simpl; congruence|]. destruct b; simpl; congruence.
  - unfold export_transactions, login_required.
    destruct (current_user db session); simpl; congruence.
Qed.



(** ** One user's requests and another user's data *)

(** X7: a request from a session that is not one of user [b] leaves the
    row of [b] and the set of transactions [b] owns exactly as they were. *)
Theorem X7_other_sessions_cannot_touch_a_user r db session b ub :
  let out := handle generate_password_hash check_password_hash r db session in
  session ≠ Some b →
  users db !! b = Some ub →
  users (db_after out) !! b = Some ub ∧
  ∀ k t, Transaction.user_id t = b →
    (transactions (db_after out) !! k = Some t ↔
     transactions db !! k = Some t).
Proof. cbv zeta.
  intros Hs Hb. split.
  - apply handle_keeps_user; [done|].
    destruct r as [| | | | | |[] [?|]|]; try done. simpl.
    by apply bool_decide_eq_false_2.
  - intros k t Ho. split.
    + intros Hafter. destruct (transactions db !! k) as [t0|] eqn:Hk.
      * destruct (handle_transaction_kept r db session k t0 Hk) as [H|[H _]];
          congruence.
      * destruct (handle_transaction_new r db session k t Hk Hafter)
          as (d & a & ty & now & uid & _ & -> & _ & ->).
        simpl in Ho. congruence.
    + intros Hk.
      destruct (handle_transaction_kept r db session k t Hk) as [H|(_ & _ & H)];
        [done|congruence].
Qed.

(** ** Round trips *)


(** X9: after a user has deleted a transaction, the same delete asked
    again answers 404 and changes nothing. *)
Theorem X9_delete_twice id db session user t :
  current_user db session = Some user →
  transactions db !! id = Some t →
  Transaction.user_id t = user.1 →
  let deleted := delete_transaction id db session in
  delete_transaction id (db_after deleted) (session_after deleted) =
    mkOutcome (abort 404) [] (db_after deleted) session.
Proof.
  intros Hu Ht Ho deleted. subst deleted.
  unfold delete_transaction at 2 3 4. rewrite (login_required_user _ _ _ _ Hu).
  rewrite Ht, bool_decide_eq_true_2 by done. simpl.
  assert (current_user (mkStore (users db) (delete id (transactions db))) session
          = Some user) as Hu'.
  { apply current_user_lookup. by apply current_user_lookup in Hu. }
  unfold delete_transaction. rewrite (login_required_user _ _ _ _ Hu'). simpl.
  by rewrite lookup_delete_eq.
Qed.

(** X10: when [check_password_hash] accepts the hash
    [generate_password_hash] made of a password, a user registered under a
    fresh name can log in with that name and password, from any browser,
    and gets the session registration gave. *)
Theorem X10_register_then_login username password salt db session session' :
  (∀ k u, users db !! k = Some u → User.username u ≠ username) →
  check_password_hash (generate_password_hash password salt) password = true →
  let registered :=
    register generate_password_hash POST username password salt db session in
  login check_password_hash POST username password (db_after registered) session'
    = mkOutcome (redirect "index") [] (db_after registered)
        (session_after registered).
Proof.
  intros Hfresh Hcheck registered. subst registered.
  unfold register. rewrite (proj2 (query_user_None username db) Hfresh). simpl.
  set (new_user := User.mk username _ _).
  set (db' := mkStore _ _).
  unfold login.
  destruct (query_user username db') as [[uid u]|] eqn:Hq.
  - apply query_user_Some in Hq as [Hk Hn]. simpl in Hk, Hn.
    rewrite db_add_lookup in Hk. case_decide as Hid.
    + injection Hk as <-. subst uid. simpl. by rewrite Hcheck.
    + exfalso. by eapply Hfresh.
  - exfalso. rewrite query_user_None in Hq.
    eapply (Hq (next_id (users db)) new_user); [|done].
    simpl. apply lookup_insert_eq.
Qed.
End Views.

(** ** Invariants of the reachable states *)

Section Reachable.
Variable generate_password_hash : string → string → string.
Variable check_password_hash : string → string → bool.

(** The [User] table after a request: as before, one row more from a
    registration under a free name, or one budget rewritten. *)
Lemma handle_users r db session :
  let out := handle generate_password_hash check_password_hash r db session in
  users (db_after out) = users db ∨
  (∃ name pw salt,
     query_user name db = None ∧
     users (db_after out) =
       db_add (User.mk name (generate_password_hash pw salt) User.default_budget)
         (users db)) ∨
  (∃ b uid u,
     users db !! uid = Some u ∧
     users (db_after out) =
       <[uid := User.set_budget b u]> (users db)).
Proof. cbv zeta.
  destruct r as [now|m name pw|m name pw salt| |d a ty now|id|m b|]; simpl.
  - left. unfold index, login_required. by destruct (current_user db session).
  - left. unfold login. destruct m; [done|].
    destruct (query_user name db); [|done].
    by destruct (check_password_hash _ _).
  - unfold register. destruct m; [by left|].
    destruct (query_user name db) eqn:Hq; [by left|].
    right. left. by exists name, pw, salt.
  - left. unfold logout, login_required. by destruct (current_user db session).
  - left. unfold add_transaction, login_required.
    destruct (current_user db session); [|done]. by destruct a.
  - left. unfold delete_transaction, login_required.
    destruct (current_user db session); [|done].
    destruct (transactions db !! id); [|done]. by case_bool_decide.
  - unfold settings, login_required.
    destruct (current_user db session) as [[uid u]|] eqn:Hu; [|by left].
    destruct m; [by left|]. destruct b as [b|]; [|by left].
    right. right. exists b, uid, u.
    by apply current_user_lookup in Hu as [_ Hu].
  - left. unfold export_transactions, login_required.
    by destruct (current_user db session).
Qed.

Lemma handle_unique_usernames r db session :
  let out := handle generate_password_hash check_password_hash r db session in
  unique_usernames db →
  unique_usernames (db_after out).
Proof. cbv zeta.
  intros Huniq. unfold unique_usernames.
  destruct (handle_users r db session)
    as [->|[(name & pw & salt & Hq & ->)|(b & uid & u & Hu & ->)]]; [done| |].
  - rewrite query_user_None in Hq.
    intros k1 k2 u1 u2. rewrite !db_add_lookup.
    repeat case_decide; subst; intros H1 H2 Hn; try done.
    + injection H1 as <-. simpl in Hn. exfalso. by eapply Hq.
    + injection H2 as <-. simpl in Hn. exfalso. by eapply Hq.
    + by eapply Huniq.
  - assert (∀ k v, <[uid := User.set_budget b u]> (users db) !! k = Some v →
              ∃ v0, users db !! k = Some v0 ∧ User.username v0 = User.username v)
      as Hold.
    { intros k v. destruct (decide (k = uid)) as [->|Hne].
      - rewrite lookup_insert_eq. intros [= <-]. by exists u.
      - rewrite lookup_insert_ne by done. intros Hk. by exists v. }
    intros k1 k2 u1 u2 H1 H2 Hn.
    apply Hold in H1 as (v1 & H1 & E1). apply Hold in H2 as (v2 & H2 & E2).
    eapply Huniq; eauto. congruence.
Qed.

Lemma reachable_unique_usernames w :
  reachable generate_password_hash check_password_hash w → unique_usernames (db w).
Proof.
  induction 1 as [|c r w _ IH].
  - intros k1 k2 u1 u2 H. cbn in H. by rewrite lookup_empty in H.
  - by apply handle_unique_usernames.
Qed.

(** X11: in every reachable state no two users have the same username. *)
Theorem X11_usernames_stay_unique w k1 k2 u1 u2 :
  reachable generate_password_hash check_password_hash w →
  users (db w) !! k1 = Some u1 → users (db w) !! k2 = Some u2 →
  User.username u1 = User.username u2 → k1 = k2.
Proof. intros Hr. apply (reachable_unique_usernames w Hr). Qed.

(** X12: in every reachable state the session of a browser names a
    stored user, so [current_user] finds that user and no protected route
    takes the browser for anonymous. *)
Theorem X12_sessions_name_stored_users w c uid :
  reachable generate_password_hash check_password_hash w →
  sessions w !! c = Some uid →
  ∃ u, users (db w) !! uid = Some u ∧
    current_user (db w) (sessions w !! c) = Some (uid, u).
Proof.
  intros Hr Hc. destruct (reachable_ok _ _ w Hr) as [_ Hs].
  destruct (Hs c uid Hc) as [u Hu]. exists u. split; [done|].
  apply current_user_lookup. done.
Qed.

(** X13: in every reachable state a login with the username of a stored
    user and a password [check_password_hash] accepts for that user's hash
    succeeds and opens a session of that very user. *)
Theorem X13_login_accepts_the_right_password w uid u password session :
  reachable generate_password_hash check_password_hash w →
  users (db w) !! uid = Some u →
  check_password_hash (User.password u) password = true →
  login check_password_hash POST (User.username u) password (db w) session =
    mkOutcome (redirect "index") [] (db w) (Some uid).
Proof.
  intros Hr Hu Hc. pose proof (reachable_unique_usernames w Hr) as Huniq.
  unfold login.
  destruct (query_user (User.username u) (db w)) as [[uid' u']|] eqn:Hq.
  - apply query_user_Some in Hq as [Hk Hn]. simpl in Hk, Hn.
    assert (uid' = uid) as -> by (by eapply Huniq).
    assert (u' = u) as -> by congruence. simpl. by rewrite Hc.
  - exfalso. rewrite query_user_None in Hq. by eapply Hq.
Qed.
End Reachable.

Lemma demo_world_reachable :
  reachable toy_generate_password_hash toy_check_password_hash demo_world.
Proof. unfold demo_world. do 2 apply reachable_step. apply reachable_initial. Qed.

(** ** The dashboard and the export *)

Lemma StronglySorted_filter {A} (R : relation A) (P : A → Prop)
    `{∀ x, Decision (P x)} l :
  StronglySorted R l → StronglySorted R (filter P l).
Proof.
  induction 1 as [|x l Hs IH Hx]; [constructor|].
  rewrite filter_cons. destruct (decide (P x)); [|done].
  constructor; [done|]. apply Forall_forall. intros y Hy.
  apply list_elem_of_filter in Hy as [_ Hy].
  rewrite Forall_forall in Hx. by apply Hx.
Qed.

(** X14: the rows of the dashboard are in descending order of date, and
    they are the rows of the export of the same user with those of other
    months left out, in the same order. *)
Theorem X14_dashboard_rows_are_exported_rows now db session user :
  current_user db session = Some user →
  ∃ monthly rows balance income expense,
    response (index now db session) =
      render_index user monthly balance income expense ∧
    response (export_transactions db session) =
      csv_attachment
        (writerow csv_header +:+ concat_strings (writerow ∘ csv_row <$> rows)) ∧
    monthly =
      filter (λ t, datetime.month (Transaction.date t.2) = datetime.month now ∧
                   datetime.year (Transaction.date t.2) = datetime.year now)
        rows ∧
    monthly `sublist_of` rows ∧
    StronglySorted
      (λ a b, datetime.compare (Transaction.date a.2) (Transaction.date b.2) ≠ Lt)
      monthly.
Proof.
  intros Hu.
  exists (filter (same_month now) (query_transactions user.1 db)),
    (query_transactions user.1 db).
  eexists _, _, _. unfold index, export_transactions.
  rewrite !(login_required_user _ _ _ _ Hu). simpl.
  split; [reflexivity|]. split; [reflexivity|]. split; [reflexivity|].
  split; [apply sublist_filter|].
  apply (StronglySorted_filter date_desc), query_transactions_sorted.
Qed.

Lemma X14_dashboard_rows_are_exported_rows_witness :
  current_user demo_db (Some 1) = Some demo_user ∧
  ∃ monthly rows balance income expense,
    response (index demo_now demo_db (Some 1)) =
      render_index demo_user monthly balance income expense ∧
    monthly `sublist_of` rows.
Proof.
  split; [reflexivity|].
  destruct (X14_dashboard_rows_are_exported_rows demo_now demo_db (Some 1)
              demo_user) as (monthly & rows & b & i & e & H1 & _ & _ & H2 & _);
    [reflexivity|].
  by exists monthly, rows, b, i, e.
Defined.

(** ** The columns of the export *)

Lemma append_cons c s t : String c s +:+ t = String c (s +:+ t).
Proof. reflexivity. Qed.

Lemma append_empty t : "" +:+ t = t.
Proof. reflexivity. Qed.

Lemma csv_structure_app q a b :
  csv_structure q (a +:+ b) =
    csv_structure q a ++ csv_structure (csv_in_quotes q a) b.
Proof.
  revert q. induction a as [|c a IH]; intros q; [done|].
  rewrite append_cons. simpl.
  case_bool_decide; [apply IH|].
  destruct q; [apply IH|]. destruct (csv_special c); [|apply IH].
  simpl. f_equal. apply IH.
Qed.

Lemma csv_in_quotes_app q a b :
  csv_in_quotes q (a +:+ b) = csv_in_quotes (csv_in_quotes q a) b.
Proof.
  revert q. induction a as [|c a IH]; intros q; [done|].
  rewrite append_cons. simpl. apply IH.
Qed.

Lemma csv_escape_inside s :
  csv_structure true (csv_escape s) = [] ∧
  csv_in_quotes true (csv_escape s) = true.
Proof.
  induction s as [|c s [IH1 IH2]]; [done|]. simpl.
  case_bool_decide as Hc; simpl.
  - done.
  - rewrite !bool_decide_eq_false_2 by done. done.
Qed.

Lemma csv_special_quotechar : csv_special quotechar = true.
Proof. reflexivity. Qed.

Lemma csv_plain_outside s :
  existsb csv_special (list_ascii_of_string s) = false →
  csv_structure false s = [] ∧ csv_in_quotes false s = false.
Proof.
  induction s as [|c s IH]; [done|]. simpl.
  intros H. apply orb_false_iff in H as [Hc Hs].
  assert (c ≠ quotechar) as Hq.
  { intros ->. by rewrite csv_special_quotechar in Hc. }
  rewrite !bool_decide_eq_false_2, Hc by done. by apply IH.
Qed.

(** A field as [csv.writer] writes it holds no column or line break for
    the reader, and leaves the reader outside quotes. *)
Lemma csv_field_closed s :
  csv_structure false (csv_field s) = [] ∧
  csv_in_quotes false (csv_field s) = false.
Proof.
  unfold csv_field.
  destruct (existsb csv_special (list_ascii_of_string s)) eqn:E;
    [|by apply csv_plain_outside].
  destruct (csv_escape_inside s) as [H1 H2].
  rewrite append_cons. simpl.
  rewrite csv_structure_app, csv_in_quotes_app, H1, H2. done.
Qed.

Lemma csv_structure_comma s :
  csv_structure false (String ","%char s) = ","%char :: csv_structure false s ∧
  csv_in_quotes false (String ","%char s) = csv_in_quotes false s.
Proof. split; reflexivity. Qed.

Lemma csv_join_structure f fs :
  csv_structure false (csv_join (csv_field <$> f :: fs)) =
    replicate (length fs) ","%char ∧
  csv_in_quotes false (csv_join (csv_field <$> f :: fs)) = false.
Proof.
  revert f. induction fs as [|g fs IH]; intros f.
  - apply csv_field_closed.
  - destruct (csv_field_closed f) as [H1 H2]. destruct (IH g) as [H3 H4].
    change (csv_join (csv_field <$> f :: g :: fs))
      with (csv_field f +:+ "," +:+ csv_join (csv_field <$> g :: fs)).
    rewrite csv_structure_app, csv_in_quotes_app, H1, H2.
    rewrite append_cons, append_empty.
    destruct (csv_structure_comma (csv_join (csv_field <$> g :: fs))) as [-> ->].
    by rewrite H3, H4.
Qed.

Lemma writerow_structure f fs :
  csv_structure false (writerow (f :: fs)) =
    replicate (length fs) ","%char ++ [CR; LF] ∧
  csv_in_quotes false (writerow (f :: fs)) = false.
Proof.
  unfold writerow. destruct (csv_join_structure f fs) as [H1 H2].
  by rewrite csv_structure_app, csv_in_quotes_app, H1, H2.
Qed.

Lemma rows_structure (rows : list TransactionObj) :
  csv_structure false (concat_strings (writerow ∘ csv_row <$> rows)) =
    mjoin (replicate (length rows) [","%char; ","%char; ","%char; CR; LF]) ∧
  csv_in_quotes false (concat_strings (writerow ∘ csv_row <$> rows)) = false.
Proof.
  induction rows as [|t rows [IH1 IH2]]; [done|].
  change (concat_strings (writerow ∘ csv_row <$> t :: rows))
    with (writerow (csv_row t) +:+ concat_strings (writerow ∘ csv_row <$> rows)).
  destruct (writerow_structure (datetime.strftime_Ymd (Transaction.date t.2))
              [Transaction.description t.2; Transaction.type t.2;
               format_2f false (Transaction.amount t.2)]) as [H1 H2].
  change (writerow (_ :: _)) with (writerow (csv_row t)) in H1, H2.
  rewrite csv_structure_app, csv_in_quotes_app, H1, H2, IH1, IH2. done.
Qed.

(** X15: whatever the descriptions and types of the transactions hold
    (commas, quotes, line breaks), a reader of the exported text meets, outside
    quotes, exactly three delimiters and one line terminator for the header
    and for each transaction of the user, and ends outside quotes: every row
    has four columns. *)
Theorem X15_export_has_four_columns db session user :
  current_user db session = Some user →
  ∃ body n,
    response (export_transactions db session) = csv_attachment body ∧
    n = length (filter (λ t : TransactionObj, Transaction.user_id t.2 = user.1)
                  (map_to_list (transactions db))) ∧
    csv_structure false body =
      mjoin (replicate (S n) [","%char; ","%char; ","%char; CR; LF]) ∧
    csv_in_quotes false body = false.
Proof.
  intros Hu. rewrite (export_transactions_user _ _ _ Hu).
  eexists _, _. split; [reflexivity|]. split; [reflexivity|].
  destruct (rows_structure (query_transactions user.1 db)) as [H1 H2].
  destruct (writerow_structure "Date" ["Description"; "Type"; "Amount (NGN)"])
    as [Hh1 Hh2].
  change (writerow _) with (writerow csv_header) in Hh1, Hh2.
  rewrite csv_structure_app, csv_in_quotes_app, Hh1, Hh2, H1, H2.
  rewrite (Permutation_length (query_transactions_perm user.1 db)).
  split; reflexivity.
Qed.

Lemma X15_export_has_four_columns_witness :
  current_user demo_db (Some 1) = Some demo_user ∧
  ∃ body,
    response (export_transactions demo_db (Some 1)) = csv_attachment body ∧
    csv_in_quotes false body = false.
Proof.
  split; [reflexivity|].
  destruct (X15_export_has_four_columns demo_db (Some 1) demo_user)
    as (body & n & H1 & _ & _ & H2); [reflexivity|].
  by exists body.
Defined.

(** ** The further properties at concrete inputs *)

Example csv_structure_of_a_hostile_row :
  csv_structure false
    (writerow ["2024-03-07";
               "a,b" +:+ String quotechar (String CR (String LF "c,d"));
               "Income"; "1.00"]) =
    [","%char; ","%char; ","%char; CR; LF].
Proof. reflexivity. Qed.

Lemma X1_protected_routes_need_a_user_witness :
  protected (Delete 1) = true ∧
  current_user demo_db None = None ∧
  handle toy_generate_password_hash toy_check_password_hash (Delete 1) demo_db
    None =
    mkOutcome (redirect "login")
      [("Please log in to access this page.", "message")] demo_db None.
Proof.
  split; [reflexivity|]. split; [reflexivity|].
  apply (X1_protected_routes_need_a_user toy_generate_password_hash
           toy_check_password_hash (Delete 1) demo_db None); reflexivity.
Defined.

Lemma X2_logout_ends_the_session_witness :
  current_user demo_db (Some 1) = Some demo_user ∧
  logout demo_db (Some 1) = mkOutcome (redirect "login") [] demo_db None.
Proof.
  split; [reflexivity|].
  apply (X2_logout_ends_the_session toy_generate_password_hash
           toy_check_password_hash demo_db (Some 1) demo_user).
  reflexivity.
Defined.

Lemma X3_writes_are_confined_witness :
  may_write_db (Login POST "ada" "lovelace") = false ∧
  db_after
    (handle toy_generate_password_hash toy_check_password_hash
       (Login POST "ada" "lovelace") demo_db None) = demo_db.
Proof.
  split; [reflexivity|].
  apply (X3_writes_are_confined toy_generate_password_hash
           toy_check_password_hash (Login POST "ada" "lovelace") demo_db None).
  reflexivity.
Defined.

Lemma X4_transactions_are_never_rewritten_witness :
  transactions demo_db !! 1 = Some demo_grant ∧
  (transactions
     (db_after
        (handle toy_generate_password_hash toy_check_password_hash (Delete 1)
           demo_db (Some 1))) !! 1 = Some demo_grant ∨
   (transactions
      (db_after
         (handle toy_generate_password_hash toy_check_password_hash (Delete 1)
            demo_db (Some 1))) !! 1 = None ∧
    Delete 1 = Delete 1 ∧ Some 1 = Some (Transaction.user_id demo_grant))).
Proof.
  split; [reflexivity|].
  apply (X4_transactions_are_never_rewritten toy_generate_password_hash
           toy_check_password_hash (Delete 1) demo_db (Some 1) 1 demo_grant).
  reflexivity.
Defined.



Lemma X7_other_sessions_cannot_touch_a_user_witness :
  Some 2 ≠ Some 1 ∧
  users demo_db !! 1 = Some demo_user.2 ∧
  users
    (db_after
       (handle toy_generate_password_hash toy_check_password_hash (Delete 1)
          demo_db (Some 2))) !! 1 = Some demo_user.2.
Proof.
  split; [discriminate|]. split; [reflexivity|].
  apply (X7_other_sessions_cannot_touch_a_user toy_generate_password_hash
           toy_check_password_hash (Delete 1) demo_db (Some 2) 1 demo_user.2);
    [discriminate|reflexivity].
Defined.


Lemma X9_delete_twice_witness :
  current_user demo_db (Some 1) = Some demo_user ∧
  transactions demo_db !! 2 = Some demo_rent ∧
  Transaction.user_id demo_rent = demo_user.1 ∧
  delete_transaction 2 (db_after (delete_transaction 2 demo_db (Some 1)))
    (session_after (delete_transaction 2 demo_db (Some 1))) =
    mkOutcome (abort 404) [] (db_after (delete_transaction 2 demo_db (Some 1)))
      (Some 1).
Proof.
  split; [reflexivity|]. split; [reflexivity|]. split; [reflexivity|].
  apply (X9_delete_twice 2 demo_db (Some 1) demo_user demo_rent); reflexivity.
Defined.

Lemma X10_register_then_login_witness :
  (∀ k u, users demo_db !! k = Some u → User.username u ≠ "cy") ∧
  toy_check_password_hash (toy_generate_password_hash "pw" "salt") "pw" = true ∧
  login toy_check_password_hash POST "cy" "pw"
    (db_after
       (register toy_generate_password_hash POST "cy" "pw" "salt" demo_db None))
    None =
    mkOutcome (redirect "index") []
      (db_after
         (register toy_generate_password_hash POST "cy" "pw" "salt" demo_db None))
      (session_after
         (register toy_generate_password_hash POST "cy" "pw" "salt" demo_db None)).
Proof.
  assert (∀ k u, users demo_db !! k = Some u → User.username u ≠ "cy") as Hfresh.
  { apply (proj1 (query_user_None "cy" demo_db)). reflexivity. }
  split; [exact Hfresh|]. split; [reflexivity|].
  apply (X10_register_then_login toy_generate_password_hash
           toy_check_password_hash "cy" "pw" "salt" demo_db None None Hfresh).
  reflexivity.
Defined.

Lemma X11_usernames_stay_unique_witness :
  reachable toy_generate_password_hash toy_check_password_hash demo_world ∧
  users (db demo_world) !! 2 = Some other_user.2 ∧
  User.username other_user.2 = User.username other_user.2 ∧
  2 = 2.
Proof.
  split; [apply demo_world_reachable|]. split; [reflexivity|].
  split; [reflexivity|].
  apply (X11_usernames_stay_unique toy_generate_password_hash
           toy_check_password_hash demo_world 2 2 other_user.2 other_user.2
           demo_world_reachable); reflexivity.
Defined.

Lemma X12_sessions_name_stored_users_witness :
  reachable toy_generate_password_hash toy_check_password_hash demo_world ∧
  sessions demo_world !! 1%nat = Some 2 ∧
  ∃ u, users (db demo_world) !! 2 = Some u ∧
    current_user (db demo_world) (sessions demo_world !! 1%nat) = Some (2, u).
Proof.
  split; [apply demo_world_reachable|]. split; [reflexivity|].
  apply (X12_sessions_name_stored_users toy_generate_password_hash
           toy_check_password_hash demo_world 1%nat 2 demo_world_reachable).
  reflexivity.
Defined.

Lemma X13_login_accepts_the_right_password_witness :
  reachable toy_generate_password_hash toy_check_password_hash demo_world ∧
  users (db demo_world) !! 1 = Some demo_user.2 ∧
  toy_check_password_hash (User.password demo_user.2) "lovelace" = true ∧
  login toy_check_password_hash POST "ada" "lovelace" (db demo_world) None =
    mkOutcome (redirect "index") [] (db demo_world) (Some 1).
Proof.
  split; [apply demo_world_reachable|]. split; [reflexivity|].
  split; [reflexivity|].
  apply (X13_login_accepts_the_right_password toy_generate_password_hash
           toy_check_password_hash demo_world 1 demo_user.2 "lovelace" None
           demo_world_reachable); reflexivity.
Defined.

(** ** A new transaction on the dashboard and in the export *)



(** ** Writing the budget twice *)

(** X17: of two settings POSTs by a user the last one wins: the database
    after both is the one the second alone would have given. *)
Theorem X17_last_budget_wins b1 b2 db session user :
  current_user db session = Some user →
  let first := settings POST (Some b1) db session in
  db_after (settings POST (Some b2) (db_after first) (session_after first)) =
    db_after (settings POST (Some b2) db session).
Proof.
  intros Hu first. subst first.
  pose proof (settings_post_current_user b1 _ _ _ Hu) as Hu1.
  rewrite (settings_post_user b2 _ _ _ Hu).
  rewrite (settings_post_user b1 _ _ _ Hu) in Hu1 |- *. simpl in *.
  rewrite (settings_post_user b2 _ _ _ Hu1). simpl.
  by rewrite insert_insert_eq.
Qed.

Lemma X17_last_budget_wins_witness :
  current_user demo_db (Some 1) = Some demo_user ∧
  db_after
    (settings POST (Some 3000%float)
       (db_after (settings POST (Some 100%float) demo_db (Some 1)))
       (session_after (settings POST (Some 100%float) demo_db (Some 1)))) =
    db_after (settings POST (Some 3000%float) demo_db (Some 1)).
Proof.
  split; [reflexivity|].
  apply (X17_last_budget_wins 100%float 3000%float demo_db (Some 1) demo_user).
  reflexivity.
Defined.
